(** * Product-catalog backend (server.js): model and verified properties

    The Express handlers of [server.js] are embedded as functions over an
    in-memory image of the [Product] collection.  Every handler body is
    written in a small state-and-exception monad, so that the source's
    [try { ... } catch (error) { ... }] blocks, its [await]ed persistence
    calls and its early [return res.status(404)...] keep their shape.

    What belongs to the libraries the file loads (the ObjectId and Number
    casts of Mongoose, and its treatment of [undefined] keys in an update
    document) is collected in the class [Mongoose]; every theorem holds for
    all of its instances, and two concrete instances are given below for
    evaluation. *)

From Stdlib Require Import Ascii.
From stdpp Require Import gmap strings list fin_maps pretty.

Set Default Proof Using "Type".

(** ** JavaScript values *)

(** A value that may be [undefined] or [null]; request fields, document
    paths and optional chaining all produce these. *)
Inductive js (A : Type) : Type :=
  | undefined
  | null
  | val (a : A).
Arguments undefined {A}.
Arguments null {A}.
Arguments val {A} a.

(** JavaScript truthiness of the primitive types the handlers test. *)
Class Truthy (A : Type) := truthy : A → bool.

#[global] Instance string_truthy : Truthy string :=
  λ s, match s with EmptyString => false | String _ _ => true end.
#[global] Instance bool_truthy : Truthy bool := λ b, b.
(** Arrays are objects: always truthy, also when empty. *)
#[global] Instance list_truthy {A} : Truthy (list A) := λ _, true.

Definition js_truthy `{Truthy A} (v : js A) : bool :=
  match v with
  | val a => truthy a
  | undefined | null => false
  end.

(** [a || b] with both sides already evaluated. *)
Definition js_or `{Truthy A} (a b : js A) : js A :=
  if js_truthy a then a else b.

(** [!a] *)
Definition js_not `{Truthy A} (a : js A) : bool := negb (js_truthy a).

(** ** Errors and the handler monad *)

Inductive Error : Type :=
  | TypeError          (* property access on undefined or null *)
  | CastError          (* Mongoose: value does not cast to the schema type *)
  | ValidationError    (* Mongoose: document fails validation on save *)
  | MongoServerError.  (* driver: duplicate key on insert *)

Inductive completion (A : Type) : Type :=
  | Normal (a : A)
  | Throw (e : Error).
Arguments Normal {A} a.
Arguments Throw {A} e.

(** A computation over a store [S] that either completes with a value or
    throws; effects made before a throw stay in the store. *)
Definition Async (S A : Type) : Type := S → completion A * S.

Definition ret {S A} (a : A) : Async S A := λ s, (Normal a, s).
Definition throw {S A} (e : Error) : Async S A := λ s, (Throw e, s).
Definition bind {S A B} (m : Async S A) (k : A → Async S B) : Async S B :=
  λ s, match m s with
       | (Normal a, s') => k a s'
       | (Throw e, s') => (Throw e, s')
       end.

Notation "'let!' x ':=' m 'in' k" := (bind m (λ x, k))
  (at level 10, x name, m at level 100, k at level 200).

(** [try { body } catch (error) { handler }], where both produce the
    response that is sent. *)
Definition try_catch {S R} (body : Async S R) (handler : Error → R) : S → R * S :=
  λ s, match body s with
       | (Normal r, s') => (r, s')
       | (Throw e, s') => (handler e, s')
       end.

(** Reading a property of a value that may be [undefined] or [null]:
    a [TypeError] in both cases. *)
Definition deref {S A} (v : js A) : Async S A :=
  match v with
  | val a => ret a
  | undefined | null => throw TypeError
  end.

(** ** The persistence library *)

Abbreviation ObjectId := string (only parsing).

Class Mongoose := {
  (** the values a [Number] path holds *)
  number : Type;
  (** cast of a text value to [Number]; [None] is a failed cast, [null]
      what the cast gives for a text it reads as no value *)
  castNumber : string → option (js number);
  (** cast of a request text to an ObjectId in its canonical hexadecimal
      form; [None] when the text is malformed *)
  castObjectId : string → option ObjectId;
  (** whether an [undefined] key of an update document is dropped ([true]),
      or sent and stored as [null] ([false]) *)
  omitUndefined : bool;
}.

(** ** Data model *)

(** A file as multer's disk storage hands it to a handler. *)
Record File := {
  originalname : string;
  filename : string;
  path : string;
}.

(** [productSchema], lines 31-39.  An array path always reads as an array. *)
Record Product `{Mongoose} := {
  sku : js string;
  name : js string;
  quantity : js number;
  description : js string;
  images : list string;
  featuredImage : js string;
  isFavorite : js bool;
}.

(** A document: the identifier assigned on creation and the schema paths. *)
Record Document `{Mongoose} := {
  _id : ObjectId;
  fields : Product;
}.

Module Req.
(** [req.body]: text fields, each possibly absent. *)
Record Body := {
  sku : js string;
  name : js string;
  quantity : js string;
  description : js string;
  featuredImage : js string;
}.

(** What a handler reads of the request.  [files] is [undefined] when
    the request is not multipart, and the (possibly empty) array of
    stored files otherwise; [file] likewise for a single upload. *)
Record t := {
  params_id : string;
  body : Body;
  files : js (list File);
  file : js File;
}.
End Req.

(** The object literals the handlers build before casting: the argument
    of [new Product(...)] and [updatedData]. *)
Record ProductData := {
  data_sku : js string;
  data_name : js string;
  data_quantity : js string;
  data_description : js string;
  data_images : list string;
  data_featuredImage : js string;
}.

Inductive Payload `{Mongoose} : Type :=
  | Empty                                         (* send() *)
  | Message (message : string)                    (* {message} *)
  | MessageError (message : string) (error : Error)  (* {message, error} *)
  | MessageProduct (message : string) (product : Document)
  | MessageFile (message : string) (file : js File)
  | Doc (product : Document)                      (* json(product) *)
  | RawError (error : Error).                     (* send(error) *)

Record Response `{Mongoose} := {
  status : nat;
  payload : Payload;
}.

Section Server.
Context `{M : Mongoose}.

(** The collection behind the [Product] model. *)
Abbreviation Collection := (gmap string Product) (only parsing).
Abbreviation Handler := (Collection → Response * Collection) (only parsing).

Definition respond (code : nat) (p : Payload) : Response :=
  {| status := code; payload := p |}.

(** *** Model operations *)

(** Cast of the [quantity] key. *)
Definition castQuantity (q : js string) : completion (js number) :=
  match q with
  | undefined => Normal undefined
  | null => Normal null
  | val s =>
      match castNumber s with
      | Some n => Normal n
      | None => Throw CastError
      end
  end.

(** [new Product(data)] with the generated identifier [oid].  A failed
    cast is kept with the document and reported by [save]. *)
Definition new_Product (oid : ObjectId) (data : ProductData) : completion Document :=
  match castQuantity (data_quantity data) with
  | Normal q =>
      Normal {| _id := oid;
                fields := {| sku := data_sku data;
                             name := data_name data;
                             quantity := q;
                             description := data_description data;
                             images := data_images data;
                             featuredImage := data_featuredImage data;
                             isFavorite := undefined |} |}
  | Throw _ => Throw ValidationError
  end.

(** [product.save()] on a new document: validation, then insertion;
    the identifier index rejects a duplicate. *)
Definition save_new (product : completion Document) : Async Collection Document :=
  λ db, match product with
        | Throw e => (Throw e, db)
        | Normal d =>
            match db !! _id d with
            | Some _ => (Throw MongoServerError, db)
            | None => (Normal d, <[_id d := fields d]> db)
            end
        end.

(** [Product.findById(id)] *)
Definition findById (id : string) : Async Collection (option Document) :=
  λ db, match castObjectId id with
        | None => (Throw CastError, db)
        | Some oid => (Normal (Build_Document _ oid <$> db !! oid), db)
        end.

(** One key of a [$set]: an [undefined] value is dropped or stored as
    [null], following [omitUndefined]. *)
Definition set_path {A} (new old : js A) : js A :=
  match new with
  | undefined => if omitUndefined then old else null
  | _ => new
  end.

Definition applyUpdate (data : ProductData) (q : js number) (p : Product) : Product :=
  {| sku := set_path (data_sku data) (sku p);
     name := set_path (data_name data) (name p);
     quantity := set_path q (quantity p);
     description := set_path (data_description data) (description p);
     images := data_images data;
     featuredImage := set_path (data_featuredImage data) (featuredImage p);
     isFavorite := isFavorite p |}.

(** [Product.findByIdAndUpdate(id, data, { new: true })] *)
Definition findByIdAndUpdate (id : string) (data : ProductData)
  : Async Collection (option Document) :=
  λ db, match castObjectId id with
        | None => (Throw CastError, db)
        | Some oid =>
            match castQuantity (data_quantity data) with
            | Throw e => (Throw e, db)
            | Normal q =>
                match db !! oid with
                | None => (Normal None, db)
                | Some p =>
                    let p' := applyUpdate data q p in
                    (Normal (Some {| _id := oid; fields := p' |}), <[oid := p']> db)
                end
            end
        end.

(** [Product.findByIdAndDelete(id)] *)
Definition findByIdAndDelete (id : string) : Async Collection (option Document) :=
  λ db, match castObjectId id with
        | None => (Throw CastError, db)
        | Some oid => (Normal (Build_Document _ oid <$> db !! oid), delete oid db)
        end.

Definition set_isFavorite (b : bool) (p : Product) : Product :=
  {| sku := sku p; name := name p; quantity := quantity p;
     description := description p; images := images p;
     featuredImage := featuredImage p; isFavorite := val b |}.

(** [product.save()] on a loaded document whose only modified path is
    [isFavorite]: a [$set] of that path on the stored document. *)
Definition save_isFavorite (d : Document) (b : bool) : Async Collection unit :=
  λ db, (Normal (), alter (set_isFavorite b) (_id d) db).

(** *** Request helpers *)

(** [req.files[0]?.path] once [req.files] is known to be an array. *)
Definition first_path (fs : list File) : js string :=
  match fs !! 0%nat with
  | Some f => val (path f)
  | None => undefined
  end.

(** [req.body.featuredImage || req.files[0]?.path]: the right operand
    is evaluated, and [req.files] dereferenced, only when the left one
    is falsy. *)
Definition featured_or_first (req : Req.t) : Async Collection (js string) :=
  if js_truthy (Req.featuredImage (Req.body req))
  then ret (Req.featuredImage (Req.body req))
  else let! fs := deref (Req.files req) in ret (first_path fs).

(** The object literal of both product routes: the four scalar fields as
    the body has them, with the images and the featured image computed by
    the handler. *)
Definition scalars_with (req : Req.t) (imgs : list string) (featured : js string)
  : ProductData :=
  {| data_sku := Req.sku (Req.body req);
     data_name := Req.name (Req.body req);
     data_quantity := Req.quantity (Req.body req);
     data_description := Req.description (Req.body req);
     data_images := imgs;
     data_featuredImage := featured |}.

(** [req.files && req.files.length > 0] *)
Definition has_files (req : Req.t) : bool :=
  match Req.files req with
  | val fs => truthy fs && bool_decide (0 < length fs)
  | undefined | null => false
  end.

(** *** Handlers *)

(** [app.post("/upload", upload.single("file"), ...)], lines 52-61. *)
Definition post_upload_body (req : Req.t) : Async Collection Response :=
  ret (respond 200 (MessageFile "File uploaded successfully!" (Req.file req))).

Definition post_upload (req : Req.t) : Handler :=
  try_catch (post_upload_body req)
    (λ error, respond 500 (MessageError "File upload failed" error)).

(** [app.post("/api/products", upload.array("images", 5), ...)],
    lines 64-81.  [oid] is the identifier [new Product] generates. *)
Definition post_products (oid : ObjectId) (req : Req.t) : Handler :=
  try_catch
    (let! fs := deref (Req.files req) in
     let imgs := path <$> fs in
     let! featured := featured_or_first req in
     let product := new_Product oid (scalars_with req imgs featured) in
     let! product := save_new product in
     ret (respond 201 (MessageProduct "Product successfully added" product)))
    (λ error, respond 500 (MessageError "Error adding product" error)).

(** [app.get("/api/products/:id", ...)], lines 92-102. *)
Definition get_product (req : Req.t) : Handler :=
  try_catch
    (let! product := findById (Req.params_id req) in
     match product with
     | None => ret (respond 404 (Message "Product not found"))
     | Some d => ret (respond 200 (Doc d))
     end)
    (λ error, respond 500 (MessageError "Error fetching product" error)).

(** [app.put("/api/products/:id", upload.array("images", 5), ...)],
    lines 104-135. *)
Definition put_product (req : Req.t) : Handler :=
  try_catch
    (let! featured := featured_or_first req in
     let! imgs :=
       if has_files req
       then (let! fs := deref (Req.files req) in ret (path <$> fs))
       else (let! product := findById (Req.params_id req) in
             match product with
             | Some d => ret (images (fields d))
             | None => throw TypeError
             end) in
     let updatedData := scalars_with req imgs featured in
     let! product := findByIdAndUpdate (Req.params_id req) updatedData in
     match product with
     | None => ret (respond 404 (Message "Product not found"))
     | Some d => ret (respond 200 (Doc d))
     end)
    (λ error, respond 500 (MessageError "Error updating product" error)).

(** [app.put("/api/products/:id/favorite", ...)], lines 137-153. *)
Definition put_favorite (req : Req.t) : Handler :=
  try_catch
    (let! product := findById (Req.params_id req) in
     match product with
     | None => ret (respond 404 (Message "Product not found"))
     | Some d =>
         let b := js_not (isFavorite (fields d)) in
         let d' := {| _id := _id d; fields := set_isFavorite b (fields d) |} in
         let! _ := save_isFavorite d' b in
         ret (respond 200 (Doc d'))
     end)
    (λ error, respond 500 (MessageError "Error toggling favorite status" error)).

(** [app.delete("/api/products/:id", ...)], lines 155-162. *)
Definition delete_product (req : Req.t) : Handler :=
  try_catch
    (let! _ := findByIdAndDelete (Req.params_id req) in
     ret (respond 204 Empty))
    (λ error, respond 500 (RawError error)).

End Server.

(** ** Two instances of the persistence library

    Identifiers of 24 hexadecimal digits, canonical in lower case, and a
    [Number] cast that reads unsigned decimal numerals (the empty text
    casts to [null]); the two instances differ in [omitUndefined] only. *)

Definition hex_lower (c : Ascii.ascii) : option Ascii.ascii :=
  let n := Ascii.nat_of_ascii c in
  if bool_decide (48 ≤ n ≤ 57) || bool_decide (97 ≤ n ≤ 102) then Some c
  else if bool_decide (65 ≤ n ≤ 70) then Some (Ascii.ascii_of_nat (n + 32))
  else None.

Fixpoint hex_string (s : string) : option string :=
  match s with
  | EmptyString => Some EmptyString
  | String c r =>
      c' ← hex_lower c; r' ← hex_string r; Some (String c' r')
  end.

Definition hex24 (s : string) : option ObjectId :=
  if bool_decide (String.length s = 24) then hex_string s else None.

Definition digit (c : Ascii.ascii) : option Z :=
  let n := Ascii.nat_of_ascii c in
  if bool_decide (48 ≤ n ≤ 57) then Some (Z.of_nat (n - 48)) else None.

Fixpoint decimal_from (acc : Z) (s : string) : option Z :=
  match s with
  | EmptyString => Some acc
  | String c r => d ← digit c; decimal_from (10 * acc + d) r
  end.

Definition decimal (s : string) : option (js Z) :=
  match s with
  | EmptyString => Some null
  | _ => val <$> decimal_from 0 s
  end.

Definition keeps_undefined : Mongoose :=
  {| number := Z; castNumber := decimal; castObjectId := hex24;
     omitUndefined := false |}.

Definition drops_undefined : Mongoose :=
  {| number := Z; castNumber := decimal; castObjectId := hex24;
     omitUndefined := true |}.

(** ** Sample requests and documents *)

Definition no_body : Req.Body :=
  {| Req.sku := undefined; Req.name := undefined; Req.quantity := undefined;
     Req.description := undefined; Req.featuredImage := undefined |}.

Definition widget_body (featured : js string) : Req.Body :=
  {| Req.sku := val "A1"; Req.name := val "Widget"; Req.quantity := val "3";
     Req.description := val "x"; Req.featuredImage := featured |}.

Definition img1 : File :=
  {| originalname := "img1.png"; filename := "1700000000001.png";
     path := "uploads/1700000000001.png" |}.

Definition img2 : File :=
  {| originalname := "img2.png"; filename := "1700000000002.png";
     path := "uploads/1700000000002.png" |}.

Definition oid1 : ObjectId := "65a1b2c3d4e5f60718293a4b".
Definition oid2 : ObjectId := "65a1b2c3d4e5f60718293a4c".

(** A multipart request: [fs] are the files stored for it. *)
Definition multipart (id : string) (b : Req.Body) (fs : list File) : Req.t :=
  {| Req.params_id := id; Req.body := b; Req.files := val fs;
     Req.file := undefined |}.

(** A request with no body that is read, addressed to [id]. *)
Definition plain (id : string) : Req.t :=
  {| Req.params_id := id; Req.body := no_body; Req.files := undefined;
     Req.file := undefined |}.

Definition widget `{Mongoose} (q : js number) (imgs : list string)
    (featured : js string) (fav : js bool) : Product :=
  {| sku := val "A1"; name := val "Widget"; quantity := q;
     description := val "x"; images := imgs; featuredImage := featured;
     isFavorite := fav |}.

(** The collection after one create with a chosen featured image and one
    file, from the empty collection. *)
Definition with_cover `{Mongoose} : gmap string Product :=
  (post_products oid1
     (multipart EmptyString (widget_body (val "uploads/cover.png")) [img1]) ∅).2.

(** The featured image of a product is the first entry of its images. *)
Definition featured_is_first `{Mongoose} (p : Product) : Prop :=
  ∃ x rest, images p = x :: rest ∧ featuredImage p = val x.

(** ** The list route, the router and the upload storage *)

(** What [GET /api/products] sends: the documents themselves, or the raw
    error. *)
Inductive ListPayload `{Mongoose} : Type :=
  | Products (products : list Document)           (* send(products) *)
  | ListError (error : Error).                    (* send(error) *)

Record ListResponse `{Mongoose} := {
  list_status : nat;
  list_payload : ListPayload;
}.

(** The registrations on [app]: one constructor per route, with what its
    handler reads.  [POST_products] also carries the identifier that
    [new Product] generates. *)
Inductive Call : Type :=
  | POST_upload (req : Req.t)
  | POST_products (oid : ObjectId) (req : Req.t)
  | GET_products (req : Req.t)
  | GET_product (req : Req.t)
  | PUT_product (req : Req.t)
  | PUT_favorite (req : Req.t)
  | DELETE_product (req : Req.t).

(** The [maxCount] of [upload.array("images", 5)], lines 64 and 104. *)
Definition maxCount : nat := 5.

(** A request that [upload.array("images", 5)] hands on: with more files
    than [maxCount] the middleware fails the request and the handler does
    not run. *)
Definition array_limit (req : Req.t) : bool :=
  match Req.files req with
  | val fs => bool_decide (length fs ≤ maxCount)
  | undefined | null => true
  end.

Definition passes_upload (c : Call) : bool :=
  match c with
  | POST_products _ req | PUT_product req => array_limit req
  | _ => true
  end.

Section Routes.
Context `{M : Mongoose}.

Definition to_document (kv : string * Product) : Document :=
  {| _id := kv.1; fields := kv.2 |}.

(** [Product.find()]: every document, in the order the store yields. *)
Definition find : Async (gmap string Product) (list Document) :=
  λ db, (Normal (to_document <$> map_to_list db), db).

(** [app.get("/api/products", ...)], lines 83-90. *)
Definition get_products (req : Req.t)
  : gmap string Product → ListResponse * gmap string Product :=
  try_catch
    (let! products := find in
     ret {| list_status := 200; list_payload := Products products |})
    (λ error, {| list_status := 500; list_payload := ListError error |}).

(** One request through its route: the status sent and the collection
    afterwards. *)
Definition serve (c : Call) (db : gmap string Product) : nat * gmap string Product :=
  match c with
  | POST_upload req => let r := post_upload req db in (status r.1, r.2)
  | POST_products oid req => let r := post_products oid req db in (status r.1, r.2)
  | GET_products req => let r := get_products req db in (list_status r.1, r.2)
  | GET_product req => let r := get_product req db in (status r.1, r.2)
  | PUT_product req => let r := put_product req db in (status r.1, r.2)
  | PUT_favorite req => let r := put_favorite req db in (status r.1, r.2)
  | DELETE_product req => let r := delete_product req db in (status r.1, r.2)
  end.

(** Requests served one after the other. *)
Definition run (cs : list Call) (db : gmap string Product) : gmap string Product :=
  foldl (λ db c, (serve c db).2) db cs.

(** What every stored product satisfies: no more images than one request
    can bring, and a favorite flag that is unset or a boolean. *)
Definition well_formed (p : Product) : Prop :=
  length (images p) ≤ maxCount ∧ isFavorite p ≠ null.

End Routes.

Section Storage.
(** [path.extname] of Node. *)
Variable extname : string → string.

(** [destination], line 45. *)
Definition storage_destination : string := "uploads/".

(** [filename], lines 46-47: [Date.now() + path.extname(file.originalname)],
    the number being written in decimal before the extension. *)
Definition storage_filename (now : N) (original : string) : string :=
  pretty now +:+ extname original.

(** The file object of an upload stored at time [now]: multer joins the
    destination and the file name. *)
Definition diskStorage (now : N) (original : string) : File :=
  {| originalname := original;
     filename := storage_filename now original;
     path := storage_destination +:+ storage_filename now original |}.

End Storage.

(** An extension is empty or starts with a dot. *)
Definition is_ext (e : string) : bool :=
  match e with
  | EmptyString => true
  | String c _ => bool_decide (c = "."%char)
  end.

(** No dot occurs in the text. *)
Fixpoint dotless (s : string) : bool :=
  match s with
  | EmptyString => true
  | String c r => bool_decide (c ≠ "."%char) && dotless r
  end.

(** The text from the last dot of a name on, empty when it has none. *)
Fixpoint from_last_dot (s : string) : string :=
  match s with
  | EmptyString => EmptyString
  | String c r =>
      match from_last_dot r with
      | EmptyString => if bool_decide (c = "."%char) then s else EmptyString
      | e => e
      end
  end.

(** A request that is not multipart: [req.files] is [undefined]. *)
Definition not_multipart (id : string) (b : Req.Body) : Req.t :=
  {| Req.params_id := id; Req.body := b; Req.files := undefined;
     Req.file := undefined |}.

(** A short session: two creates, an update, a toggle, a delete. *)
Definition session : list Call :=
  [ POST_products oid1 (multipart EmptyString (widget_body undefined) [img1; img2]);
    POST_products oid2 (multipart EmptyString (widget_body (val "uploads/cover.png")) []);
    PUT_product (multipart oid2 (widget_body undefined) [img2]);
    PUT_favorite (plain oid1);
    GET_products (plain EmptyString);
    DELETE_product (plain oid2) ].

(** * Properties *)

Section Properties.
Context `{M : Mongoose}.
Implicit Types (db : gmap string Product) (req : Req.t) (p : Product).

(** ** The model operations *)

Lemma findById_found id oid p db :
  castObjectId id = Some oid → db !! oid = Some p →
  findById id db = (Normal (Some {| _id := oid; fields := p |}), db).
Proof. intros Hid Hp. unfold findById. by rewrite Hid, Hp. Qed.

Lemma findById_missing id oid db :
  castObjectId id = Some oid → db !! oid = None →
  findById id db = (Normal None, db).
Proof. intros Hid Hp. unfold findById. by rewrite Hid, Hp. Qed.

Lemma findById_malformed id db :
  castObjectId id = None → findById id db = (Throw CastError, db).
Proof. intros Hid. unfold findById. by rewrite Hid. Qed.

(** A read never changes the collection. *)
Lemma findById_pure id db : (findById id db).2 = db.
Proof. unfold findById. by destruct (castObjectId id). Qed.

Lemma set_isFavorite_frame b p :
  sku (set_isFavorite b p) = sku p ∧ name (set_isFavorite b p) = name p ∧
  quantity (set_isFavorite b p) = quantity p ∧
  description (set_isFavorite b p) = description p ∧
  images (set_isFavorite b p) = images p ∧
  featuredImage (set_isFavorite b p) = featuredImage p.
Proof. done. Qed.

(** ** The handlers, case by case *)

Lemma get_product_found req oid p db :
  castObjectId (Req.params_id req) = Some oid → db !! oid = Some p →
  get_product req db = (respond 200 (Doc {| _id := oid; fields := p |}), db).
Proof.
  intros Hid Hp. unfold get_product, try_catch, bind.
  by rewrite (findById_found _ _ _ _ Hid Hp).
Qed.

Lemma get_product_missing req oid db :
  castObjectId (Req.params_id req) = Some oid → db !! oid = None →
  get_product req db = (respond 404 (Message "Product not found"), db).
Proof.
  intros Hid Hp. unfold get_product, try_catch, bind.
  by rewrite (findById_missing _ _ _ Hid Hp).
Qed.

Lemma get_product_malformed req db :
  castObjectId (Req.params_id req) = None →
  get_product req db
  = (respond 500 (MessageError "Error fetching product" CastError), db).
Proof.
  intros Hid. unfold get_product, try_catch, bind.
  by rewrite (findById_malformed _ _ Hid).
Qed.

Lemma put_favorite_found req oid p db :
  castObjectId (Req.params_id req) = Some oid → db !! oid = Some p →
  put_favorite req db
  = (respond 200 (Doc {| _id := oid;
                         fields := set_isFavorite (js_not (isFavorite p)) p |}),
     <[oid := set_isFavorite (js_not (isFavorite p)) p]> db).
Proof.
  intros Hid Hp. unfold put_favorite, try_catch, bind.
  rewrite (findById_found _ _ _ _ Hid Hp). cbn.
  f_equal. apply map_eq. intros k.
  rewrite lookup_alter, lookup_insert.
  case_decide; subst; by rewrite ?Hp.
Qed.

Lemma delete_product_deletes req oid db :
  castObjectId (Req.params_id req) = Some oid →
  delete_product req db = (respond 204 Empty, delete oid db).
Proof.
  intros Hid. unfold delete_product, try_catch, bind, findByIdAndDelete.
  by rewrite Hid.
Qed.

(** ** Get by id *)

(** C5.  Get-by-id on a well-formed identifier with no matching document
    answers 404 with the body [{message: "Product not found"}]; on a
    malformed identifier it answers 500 through the handler's only catch
    block, the failed cast being an error like any other.  Neither changes
    the collection. *)
Theorem get_product_404_500 req db :
  (∀ oid, castObjectId (Req.params_id req) = Some oid → db !! oid = None →
     get_product req db = (respond 404 (Message "Product not found"), db)) ∧
  (castObjectId (Req.params_id req) = None →
     status (get_product req db).1 = 500 ∧
     get_product req db
     = (respond 500 (MessageError "Error fetching product" CastError), db)).
Proof.
  split.
  - intros oid Hid Hp. by apply get_product_missing with oid.
  - intros Hid. by rewrite (get_product_malformed _ _ Hid).
Qed.

(** ** Delete *)

(** C6.  Delete on a well-formed identifier answers 204 with an empty body
    whatever the collection holds (the handler never looks the document
    up), and a get-by-id on the same identifier right after answers 404. *)
Theorem delete_product_204_then_404 req req' oid db :
  castObjectId (Req.params_id req) = Some oid →
  Req.params_id req' = Req.params_id req →
  delete_product req db = (respond 204 Empty, delete oid db) ∧
  get_product req' (delete_product req db).2
  = (respond 404 (Message "Product not found"), delete oid db).
Proof.
  intros Hid Hreq. rewrite (delete_product_deletes _ _ _ Hid). split; [done|].
  cbn [fst snd]. apply (get_product_missing _ oid); [congruence|].
  apply lookup_delete_eq.
Qed.

(** ** Upload *)

(** C10.  The upload handler answers 200 with [{message, file}] for every
    request it is given, [file] being [undefined] when no file came under
    the field; its body completes normally on every request, so the catch
    block that answers 500 is never entered. *)
Theorem post_upload_200 req db :
  post_upload req db
  = (respond 200 (MessageFile "File uploaded successfully!" (Req.file req)), db) ∧
  (∀ e db', post_upload_body req db ≠ (Throw e, db')) ∧
  status (post_upload req db).1 ≠ 500.
Proof. repeat split; intros; discriminate. Qed.

(** ** Favorite toggle *)

(** C4.  Two favorite toggles in a row on an existing product both answer
    200 and leave [isFavorite] with its original boolean value: a stored
    [true] or [false] is stored again, and a flag that was unset, which
    reads as false, is stored as [false]. *)
Theorem put_favorite_twice req oid p db :
  castObjectId (Req.params_id req) = Some oid → db !! oid = Some p →
  let s1 := put_favorite req db in
  let s2 := put_favorite req s1.2 in
  status s1.1 = 200 ∧ status s2.1 = 200 ∧
  ∃ p2, s2.2 !! oid = Some p2 ∧
        s2.1 = respond 200 (Doc {| _id := oid; fields := p2 |}) ∧
        js_truthy (isFavorite p2) = js_truthy (isFavorite p) ∧
        (∀ b, isFavorite p = val b → isFavorite p2 = val b) ∧
        (isFavorite p = undefined → isFavorite p2 = val false).
Proof.
  intros Hid Hp s1 s2. subst s1 s2.
  rewrite (put_favorite_found _ _ _ _ Hid Hp). cbn [fst snd].
  rewrite (put_favorite_found _ oid (set_isFavorite (js_not (isFavorite p)) p))
    by (done || apply lookup_insert_eq).
  cbn [fst snd]. repeat split; try done.
  eexists. split; [apply lookup_insert_eq|]. split; [done|].
  destruct (isFavorite p) as [| |[]]; cbn; repeat split; congruence.
Qed.

(** C8.  A favorite toggle on an existing product keeps the document under
    its identifier and changes no path but [isFavorite], in the collection
    and in the document it returns; all other documents are untouched. *)
Theorem put_favorite_frame req oid p db :
  castObjectId (Req.params_id req) = Some oid → db !! oid = Some p →
  ∃ p', (put_favorite req db).1 = respond 200 (Doc {| _id := oid; fields := p' |}) ∧
        (put_favorite req db).2 !! oid = Some p' ∧
        sku p' = sku p ∧ name p' = name p ∧ quantity p' = quantity p ∧
        description p' = description p ∧ images p' = images p ∧
        featuredImage p' = featuredImage p ∧
        (∀ k, k ≠ oid → (put_favorite req db).2 !! k = db !! k).
Proof.
  intros Hid Hp. rewrite (put_favorite_found _ _ _ _ Hid Hp). cbn [fst snd].
  eexists. split; [done|]. split; [apply lookup_insert_eq|].
  repeat split. intros k Hk. by apply lookup_insert_ne.
Qed.

(** ** Create and update *)

Lemma truthy_nonempty (s : string) : s ≠ EmptyString → truthy s = true.
Proof. by destruct s. Qed.

(** With [req.files] an array, line 72 and line 111 compute [a || b]. *)
Lemma featured_or_first_files req fs db :
  Req.files req = val fs →
  featured_or_first req db
  = (Normal (js_or (Req.featuredImage (Req.body req)) (first_path fs)), db).
Proof.
  intros Hfs. unfold featured_or_first, js_or.
  destruct (js_truthy _); [done|]. by rewrite Hfs.
Qed.

Lemma has_files_cons req f fs : Req.files req = val (f :: fs) → has_files req = true.
Proof. intros Hfs. unfold has_files. rewrite Hfs. cbn. apply bool_decide_eq_true. lia. Qed.

Lemma first_path_head fs : first_path fs = from_option val undefined (head (path <$> fs)).
Proof. by destruct fs. Qed.

(** What a create that answers 201 has done. *)
Lemma post_products_created oid req db r db' :
  post_products oid req db = (r, db') → status r = 201 →
  ∃ fs q,
    Req.files req = val fs ∧
    castQuantity (Req.quantity (Req.body req)) = Normal q ∧
    db !! oid = None ∧
    let p := {| sku := Req.sku (Req.body req);
                name := Req.name (Req.body req);
                quantity := q;
                description := Req.description (Req.body req);
                images := path <$> fs;
                featuredImage :=
                  js_or (Req.featuredImage (Req.body req)) (first_path fs);
                isFavorite := undefined |} in
    r = respond 201 (MessageProduct "Product successfully added"
                       {| _id := oid; fields := p |}) ∧
    db' = <[oid := p]> db.
Proof.
  unfold post_products, try_catch, bind.
  destruct (Req.files req) as [| |fs] eqn:Hfs; cbn;
    try (intros [= <- <-]; discriminate).
  rewrite (featured_or_first_files _ _ _ Hfs).
  unfold new_Product, save_new, scalars_with; cbn.
  destruct (castQuantity _) as [q|e] eqn:Hq; cbn;
    [|intros [= <- <-]; discriminate].
  destruct (db !! oid) eqn:Hdb; [intros [= <- <-]; discriminate|].
  intros [= <- <-] _. by exists fs, q.
Qed.

(** An update that names an existing document, brings files and passes
    the casts. *)
Lemma put_product_with_files req f fs oid p q db :
  Req.files req = val (f :: fs) →
  castObjectId (Req.params_id req) = Some oid → db !! oid = Some p →
  castQuantity (Req.quantity (Req.body req)) = Normal q →
  let p' := applyUpdate
              (scalars_with req (path <$> f :: fs)
                 (js_or (Req.featuredImage (Req.body req)) (val (path f))))
              q p in
  put_product req db
  = (respond 200 (Doc {| _id := oid; fields := p' |}), <[oid := p']> db).
Proof.
  intros Hfs Hid Hp Hq. unfold put_product, try_catch, bind.
  rewrite (featured_or_first_files _ _ _ Hfs), (has_files_cons _ _ _ Hfs), Hfs.
  cbn. unfold findByIdAndUpdate. cbn. by rewrite Hid, Hq, Hp.
Qed.

(** The sibling of the failing path: with files, an unknown identifier is
    answered 404 at lines 127-129. *)
Lemma put_product_with_files_missing req f fs oid q db :
  Req.files req = val (f :: fs) →
  castObjectId (Req.params_id req) = Some oid → db !! oid = None →
  castQuantity (Req.quantity (Req.body req)) = Normal q →
  put_product req db = (respond 404 (Message "Product not found"), db).
Proof.
  intros Hfs Hid Hp Hq. unfold put_product, try_catch, bind.
  rewrite (featured_or_first_files _ _ _ Hfs), (has_files_cons _ _ _ Hfs), Hfs.
  cbn. unfold findByIdAndUpdate. cbn. by rewrite Hid, Hq, Hp.
Qed.

(** A failed cast is answered 500 and leaves the collection as it was. *)
Lemma put_product_with_files_cast_error req f fs e db :
  Req.files req = val (f :: fs) →
  castQuantity (Req.quantity (Req.body req)) = Throw e →
  status (put_product req db).1 = 500 ∧ (put_product req db).2 = db.
Proof.
  intros Hfs Hq. unfold put_product, try_catch, bind.
  rewrite (featured_or_first_files _ _ _ Hfs), (has_files_cons _ _ _ Hfs), Hfs.
  cbn. unfold findByIdAndUpdate. cbn. rewrite Hq.
  by destruct (castObjectId _).
Qed.

(** An update without files never changes the images of the document it
    names, whatever it answers. *)
Lemma put_product_without_files req oid p db :
  has_files req = false →
  castObjectId (Req.params_id req) = Some oid → db !! oid = Some p →
  ∃ p', (put_product req db).2 !! oid = Some p' ∧ images p' = images p.
Proof.
  intros Hno Hid Hp. unfold put_product, try_catch, bind. rewrite Hno.
  destruct (featured_or_first req db) as [[featured|e] db0] eqn:Hfeat.
  2:{ assert (db0 = db) as ->; [|by exists p].
      revert Hfeat. unfold featured_or_first, bind, deref.
      destruct (js_truthy _); [by intros [= <-]|].
      destruct (Req.files req); by intros [= <-]. }
  assert (db0 = db) as ->.
  { revert Hfeat. unfold featured_or_first, bind, deref.
    destruct (js_truthy _); [by intros [= <- <-]|].
    destruct (Req.files req); by intros [= <-]. }
  rewrite (findById_found _ _ _ _ Hid Hp). cbn.
  unfold findByIdAndUpdate. rewrite Hid. cbn.
  destruct (castQuantity _); cbn; [|by exists p].
  rewrite Hp. cbn. eexists. split; [apply lookup_insert_eq|done].
Qed.

(** An update without files and without a (truthy) [featuredImage] sends
    the key as [undefined]: the stored featured image is the previous one
    or [null], and is not recomputed from the carried-over images. *)
Lemma put_product_without_files_featuredImage req oid p q db :
  Req.files req = val [] →
  js_truthy (Req.featuredImage (Req.body req)) = false →
  castObjectId (Req.params_id req) = Some oid → db !! oid = Some p →
  castQuantity (Req.quantity (Req.body req)) = Normal q →
  ∃ p', put_product req db
        = (respond 200 (Doc {| _id := oid; fields := p' |}), <[oid := p']> db) ∧
        images p' = images p ∧
        featuredImage p' = if omitUndefined then featuredImage p else null.
Proof.
  intros Hfs Hfalsy Hid Hp Hq.
  assert (has_files req = false) as Hno.
  { unfold has_files. rewrite Hfs. cbn. apply bool_decide_eq_false. lia. }
  unfold put_product, try_catch, bind. rewrite Hno.
  unfold featured_or_first, bind. rewrite Hfalsy, Hfs. cbn.
  rewrite (findById_found _ _ _ _ Hid Hp). cbn.
  unfold findByIdAndUpdate. cbn. rewrite Hid, Hq, Hp.
  eexists. split; [done|]. by split.
Qed.

Lemma put_product_200_cast req f fs db :
  Req.files req = val (f :: fs) → status (put_product req db).1 = 200 →
  ∃ q, castQuantity (Req.quantity (Req.body req)) = Normal q.
Proof.
  intros Hfs H200. destruct (castQuantity _) as [q|e] eqn:Hq; [by exists q|].
  destruct (put_product_with_files_cast_error _ _ _ _ db Hfs Hq) as [H500 _].
  congruence.
Qed.

(** C9.  After a create that answers 201, a get-by-id on the identifier of
    the created document (which, as every generated ObjectId, casts to
    itself) answers 200 with the very document the create returned. *)
Theorem get_after_create oid req req' db r db' :
  castObjectId oid = Some oid →
  post_products oid req db = (r, db') → status r = 201 →
  Req.params_id req' = oid →
  ∃ d, r = respond 201 (MessageProduct "Product successfully added" d) ∧
       _id d = oid ∧
       get_product req' db' = (respond 200 (Doc d), db').
Proof.
  intros Hcanon Hpost H201 Hreq.
  destruct (post_products_created _ _ _ _ _ Hpost H201)
    as (fs & q & _ & _ & _ & -> & ->).
  eexists. split; [done|]. split; [done|].
  apply get_product_found; [by rewrite Hreq|]. apply lookup_insert_eq.
Qed.

(** C7 (as the code has it).  A create that supplies a non-empty
    [featuredImage] and answers 201 stores and returns a product whose
    [featuredImage] is the supplied text, whatever files came with it. *)
Theorem post_products_explicit_featuredImage oid req s db r db' :
  Req.featuredImage (Req.body req) = val s → s ≠ EmptyString →
  post_products oid req db = (r, db') → status r = 201 →
  ∃ p, r = respond 201 (MessageProduct "Product successfully added"
                          {| _id := oid; fields := p |}) ∧
       db' !! oid = Some p ∧
       featuredImage p = val s.
Proof.
  intros Hfeat Hs Hpost H201.
  destruct (post_products_created _ _ _ _ _ Hpost H201)
    as (fs & q & _ & _ & _ & -> & ->).
  eexists. split; [done|]. split; [apply lookup_insert_eq|].
  cbn. rewrite Hfeat. unfold js_or. cbn. by rewrite (truthy_nonempty _ Hs).
Qed.

(** C1 (as the code has it).  With no [featuredImage] in the body, a
    create that answers 201 and an update that brings at least one file
    and answers 200 store a product whose [featuredImage] is the first
    entry of its (non-empty) [images]. *)
Theorem featuredImage_defaults_to_first_upload :
  (∀ oid req db r db',
     Req.featuredImage (Req.body req) = undefined →
     post_products oid req db = (r, db') → status r = 201 →
     ∃ p, db' !! oid = Some p ∧
          (images p ≠ [] →
           ∃ x rest, images p = x :: rest ∧ featuredImage p = val x)) ∧
  (∀ req f fs oid p0 db,
     Req.featuredImage (Req.body req) = undefined →
     Req.files req = val (f :: fs) →
     castObjectId (Req.params_id req) = Some oid → db !! oid = Some p0 →
     status (put_product req db).1 = 200 →
     ∃ p, (put_product req db).2 !! oid = Some p ∧
          ∃ x rest, images p = x :: rest ∧ featuredImage p = val x).
Proof.
  split.
  - intros oid req db r db' Hfeat Hpost H201.
    destruct (post_products_created _ _ _ _ _ Hpost H201)
      as (fs & q & _ & _ & _ & -> & ->).
    eexists. split; [apply lookup_insert_eq|]. cbn. rewrite Hfeat.
    destruct fs as [|f fs]; [done|]. intros _. by exists (path f), (path <$> fs).
  - intros req f fs oid p0 db Hfeat Hfs Hid Hp H200.
    destruct (put_product_200_cast _ _ _ _ Hfs H200) as [q Hq].
    rewrite (put_product_with_files _ _ _ _ _ _ _ Hfs Hid Hp Hq). cbn [fst snd].
    eexists. split; [apply lookup_insert_eq|].
    exists (path f), (path <$> fs). split; [done|]. cbn. by rewrite Hfeat.
Qed.

(** C3.  On an existing product, an update without files leaves the stored
    [images] as they were, and an update that brings files and answers 200
    stores exactly the references of those files, in order. *)
Theorem put_product_images req oid p db :
  castObjectId (Req.params_id req) = Some oid → db !! oid = Some p →
  (has_files req = false →
     ∃ p', (put_product req db).2 !! oid = Some p' ∧ images p' = images p) ∧
  (∀ fs, Req.files req = val fs → fs ≠ [] →
     status (put_product req db).1 = 200 →
     ∃ p', (put_product req db).2 !! oid = Some p' ∧
           (put_product req db).1 = respond 200 (Doc {| _id := oid; fields := p' |}) ∧
           images p' = path <$> fs).
Proof.
  intros Hid Hp. split.
  - intros Hno. by apply put_product_without_files.
  - intros [|f fs] Hfs Hne H200; [done|].
    destruct (put_product_200_cast _ _ _ _ Hfs H200) as [q Hq].
    rewrite (put_product_with_files _ _ _ _ _ _ _ Hfs Hid Hp Hq). cbn [fst snd].
    eexists. split; [apply lookup_insert_eq|]. by split.
Qed.

(** C2 (where the code departs from it).  An update without files that is
    addressed to a well-formed identifier with no document is answered 500:
    line 119 reads [images] of the [null] that [findById] returned, and the
    [TypeError] reaches the catch block before the 404 of lines 127-129. *)
Theorem put_product_without_files_missing_500 req oid db :
  has_files req = false →
  castObjectId (Req.params_id req) = Some oid → db !! oid = None →
  put_product req db
  = (respond 500 (MessageError "Error updating product" TypeError), db).
Proof.
  intros Hno Hid Hp. unfold put_product, try_catch, bind. rewrite Hno.
  unfold featured_or_first, bind, deref.
  destruct (js_truthy _); cbn.
  - by rewrite (findById_missing _ _ _ Hid Hp).
  - destruct (Req.files req); cbn; try done.
    by rewrite (findById_missing _ _ _ Hid Hp).
Qed.

End Properties.

(** * Evaluation on the two instances *)

Example hex24_canonical : hex24 "65A1B2C3D4E5F60718293A4B" = Some oid1.
Proof. reflexivity. Qed.

Example hex24_short : hex24 "65a1" = None.
Proof. reflexivity. Qed.

Example decimal_3 : decimal "3" = Some (val 3%Z).
Proof. reflexivity. Qed.

Example decimal_abc : decimal "abc" = None.
Proof. reflexivity. Qed.

Example create_two_images :
  (@post_products drops_undefined oid1
     (multipart EmptyString (widget_body undefined) [img1; img2]) ∅).2 !! oid1
  = Some (@widget drops_undefined (val 3%Z) [path img1; path img2]
            (val (path img1)) undefined).
Proof. reflexivity. Qed.

Example with_cover_value :
  @with_cover drops_undefined
  = {[ oid1 := @widget drops_undefined (val 3%Z) [path img1]
                 (val "uploads/cover.png") undefined ]}.
Proof. reflexivity. Qed.

Lemma get_product_404_500_witness :
  @get_product drops_undefined (plain oid2) with_cover
  = (respond 404 (Message "Product not found"), with_cover) ∧
  status (@get_product drops_undefined (plain "latest") with_cover).1 = 500.
Proof.
  split.
  - apply (proj1 (@get_product_404_500 drops_undefined (plain oid2) with_cover) oid2);
      reflexivity.
  - apply (proj2 (@get_product_404_500 drops_undefined (plain "latest") with_cover)).
    reflexivity.
Defined.

Lemma delete_product_204_then_404_witness :
  @delete_product drops_undefined (plain oid1) with_cover
  = (respond 204 Empty, delete oid1 with_cover) ∧
  @get_product drops_undefined (plain oid1)
    (@delete_product drops_undefined (plain oid1) with_cover).2
  = (respond 404 (Message "Product not found"), delete oid1 with_cover).
Proof.
  apply (@delete_product_204_then_404 drops_undefined (plain oid1) (plain oid1));
    reflexivity.
Defined.

Lemma put_favorite_twice_witness :
  ∃ p2,
    (@put_favorite drops_undefined (plain oid1)
       (@put_favorite drops_undefined (plain oid1) with_cover).2).2 !! oid1
    = Some p2 ∧
    isFavorite p2 = val false.
Proof.
  destruct (@put_favorite_twice drops_undefined (plain oid1) oid1
              (@widget drops_undefined (val 3%Z) [path img1]
                 (val "uploads/cover.png") undefined) with_cover)
    as (_ & _ & p2 & Hp2 & _ & _ & _ & Hunset);
    [reflexivity | reflexivity |].
  exists p2. split; [exact Hp2 | apply Hunset; reflexivity].
Defined.

Lemma put_favorite_frame_witness :
  ∃ p',
    (@put_favorite keeps_undefined (plain oid1) with_cover).2 !! oid1 = Some p' ∧
    images p' = [path img1] ∧ featuredImage p' = val "uploads/cover.png".
Proof.
  destruct (@put_favorite_frame keeps_undefined (plain oid1) oid1
              (@widget keeps_undefined (val 3%Z) [path img1]
                 (val "uploads/cover.png") undefined) with_cover)
    as (p' & _ & Hp' & _ & _ & _ & _ & Himgs & Hfeat & _);
    [reflexivity | reflexivity |].
  exists p'. split; [exact Hp' | split; [exact Himgs | exact Hfeat]].
Defined.

Lemma get_after_create_witness :
  ∃ d,
    (@post_products drops_undefined oid2
       (multipart EmptyString (widget_body undefined) [img1; img2]) with_cover).1
    = respond 201 (MessageProduct "Product successfully added" d) ∧
    @get_product drops_undefined (plain oid2)
      (@post_products drops_undefined oid2
         (multipart EmptyString (widget_body undefined) [img1; img2]) with_cover).2
    = (respond 200 (Doc d),
       (@post_products drops_undefined oid2
          (multipart EmptyString (widget_body undefined) [img1; img2]) with_cover).2).
Proof.
  destruct (@get_after_create drops_undefined oid2
              (multipart EmptyString (widget_body undefined) [img1; img2])
              (plain oid2) with_cover
              (@post_products drops_undefined oid2
                 (multipart EmptyString (widget_body undefined) [img1; img2])
                 with_cover).1
              (@post_products drops_undefined oid2
                 (multipart EmptyString (widget_body undefined) [img1; img2])
                 with_cover).2)
    as (d & Hr & _ & Hget);
    [reflexivity | reflexivity | reflexivity | reflexivity |].
  exists d. split; [exact Hr | exact Hget].
Defined.

Lemma post_products_explicit_featuredImage_witness :
  ∃ p,
    (@post_products keeps_undefined oid1
       (multipart EmptyString (widget_body (val "uploads/cover.png")) [img1; img2])
       ∅).2 !! oid1 = Some p ∧
    featuredImage p = val "uploads/cover.png".
Proof.
  destruct (@post_products_explicit_featuredImage keeps_undefined oid1
              (multipart EmptyString (widget_body (val "uploads/cover.png"))
                 [img1; img2])
              "uploads/cover.png" ∅
              (@post_products keeps_undefined oid1
                 (multipart EmptyString (widget_body (val "uploads/cover.png"))
                    [img1; img2]) ∅).1
              (@post_products keeps_undefined oid1
                 (multipart EmptyString (widget_body (val "uploads/cover.png"))
                    [img1; img2]) ∅).2)
    as (p & _ & Hp & Hfeat);
    [reflexivity | discriminate | reflexivity | reflexivity |].
  exists p. split; [exact Hp | exact Hfeat].
Defined.

Lemma featuredImage_defaults_to_first_upload_witness :
  (∃ p,
     (@post_products drops_undefined oid2
        (multipart EmptyString (widget_body undefined) [img1; img2]) with_cover).2
       !! oid2 = Some p ∧
     (images p ≠ [] → featured_is_first p)) ∧
  (∃ p,
     (@put_product drops_undefined
        (multipart oid1 (widget_body undefined) [img2; img1]) with_cover).2
       !! oid1 = Some p ∧
     featured_is_first p).
Proof.
  split.
  - apply (proj1 (@featuredImage_defaults_to_first_upload drops_undefined) oid2
             (multipart EmptyString (widget_body undefined) [img1; img2])
             with_cover
             (@post_products drops_undefined oid2
                (multipart EmptyString (widget_body undefined) [img1; img2])
                with_cover).1);
      [reflexivity | reflexivity | reflexivity].
  - apply (proj2 (@featuredImage_defaults_to_first_upload drops_undefined)
             (multipart oid1 (widget_body undefined) [img2; img1]) img2 [img1] oid1
             (@widget drops_undefined (val 3%Z) [path img1]
                (val "uploads/cover.png") undefined) with_cover);
      [reflexivity | reflexivity | reflexivity | reflexivity
      | reflexivity].
Defined.

(** C1, as stated, fails on an update without files: the images are
    carried over, but [featuredImage] is computed from the (empty) files of
    the request, so the product keeps the featured image it had when
    [undefined] keys are dropped, and gets [null] when they are stored.
    In both cases it is not the first entry of the carried-over images. *)
Lemma put_product_without_files_featured_not_first :
  Req.featuredImage (Req.body (multipart oid1 (widget_body undefined) [])) = undefined ∧
  (@put_product drops_undefined (multipart oid1 (widget_body undefined) []) with_cover
   = (respond 200
        (Doc {| _id := oid1;
                fields := @widget drops_undefined (val 3%Z) [path img1]
                            (val "uploads/cover.png") undefined |}),
      {[ oid1 := @widget drops_undefined (val 3%Z) [path img1]
                   (val "uploads/cover.png") undefined ]}) ∧
   ¬ featured_is_first
       (@widget drops_undefined (val 3%Z) [path img1]
          (val "uploads/cover.png") undefined)) ∧
  (@put_product keeps_undefined (multipart oid1 (widget_body undefined) []) with_cover
   = (respond 200
        (Doc {| _id := oid1;
                fields := @widget keeps_undefined (val 3%Z) [path img1]
                            null undefined |}),
      {[ oid1 := @widget keeps_undefined (val 3%Z) [path img1] null undefined ]}) ∧
   ¬ featured_is_first
       (@widget keeps_undefined (val 3%Z) [path img1] null undefined)).
Proof.
  split; [reflexivity|]. split; (split; [reflexivity|]).
  - intros (x & rest & [= <- _] & [=]).
  - intros (x & rest & _ & [=]).
Qed.

Lemma put_product_images_witness :
  (∃ p',
     (@put_product keeps_undefined (multipart oid1 (widget_body undefined) [])
        with_cover).2 !! oid1 = Some p' ∧
     images p' = [path img1]) ∧
  (∃ p',
     (@put_product keeps_undefined
        (multipart oid1 (widget_body undefined) [img2; img1]) with_cover).2
       !! oid1 = Some p' ∧
     images p' = [path img2; path img1]).
Proof.
  split.
  - apply (proj1 (@put_product_images keeps_undefined
                    (multipart oid1 (widget_body undefined) []) oid1
                    (@widget keeps_undefined (val 3%Z) [path img1]
                       (val "uploads/cover.png") undefined) with_cover
                    eq_refl ltac:(reflexivity)));
      reflexivity.
  - destruct (proj2 (@put_product_images keeps_undefined
                       (multipart oid1 (widget_body undefined) [img2; img1]) oid1
                       (@widget keeps_undefined (val 3%Z) [path img1]
                          (val "uploads/cover.png") undefined) with_cover
                       eq_refl ltac:(reflexivity))
                [img2; img1])
      as (p' & Hp' & _ & Himgs);
      [reflexivity | discriminate | reflexivity |].
    exists p'. split; [exact Hp' | exact Himgs].
Defined.

Lemma put_product_without_files_missing_500_witness :
  @put_product drops_undefined (multipart oid2 (widget_body undefined) []) with_cover
  = (respond 500 (MessageError "Error updating product" TypeError), with_cover).
Proof.
  apply (@put_product_without_files_missing_500 drops_undefined
           (multipart oid2 (widget_body undefined) []) oid2 with_cover);
    reflexivity.
Defined.

(** The same request with one file is answered 404. *)
Example put_product_with_files_missing_404 :
  @put_product drops_undefined (multipart oid2 (widget_body undefined) [img2]) with_cover
  = (respond 404 (Message "Product not found"), with_cover).
Proof.
  apply (@put_product_with_files_missing drops_undefined _ img2 [] oid2 (val 3%Z));
    reflexivity.
Qed.

(** C7, as stated, fails when the supplied [featuredImage] is the empty
    text: [||] takes it for absent and the first file's reference is
    stored instead. *)
Lemma post_products_empty_featuredImage_replaced :
  Req.featuredImage
    (Req.body (multipart EmptyString (widget_body (val EmptyString)) [img1]))
  = val EmptyString ∧
  @post_products drops_undefined oid1
    (multipart EmptyString (widget_body (val EmptyString)) [img1]) ∅
  = (respond 201
       (MessageProduct "Product successfully added"
          {| _id := oid1;
             fields := @widget drops_undefined (val 3%Z) [path img1]
                         (val (path img1)) undefined |}),
     {[ oid1 := @widget drops_undefined (val 3%Z) [path img1]
                  (val (path img1)) undefined ]}) ∧
  featuredImage (@widget drops_undefined (val 3%Z) [path img1]
                   (val (path img1)) undefined) ≠ val EmptyString.
Proof.
  split; [reflexivity|]. split; [reflexivity|]. discriminate.
Qed.

(** * The remaining routes, outcomes and compositions *)

Section Outcomes.
Context `{M : Mongoose}.
Implicit Types (db : gmap string Product) (req : Req.t) (p : Product) (d : Document).

(** ** Listing *)

#[local] Instance to_document_inj : Inj (=) (=) to_document.
Proof. intros [k p] [k' p'] [= -> ->]. done. Qed.

Lemma get_products_eq req db :
  get_products req db
  = ({| list_status := 200;
        list_payload := Products (to_document <$> map_to_list db) |}, db).
Proof. done. Qed.

Lemma elem_of_find d db :
  d ∈ to_document <$> map_to_list db ↔ db !! _id d = Some (fields d).
Proof.
  rewrite list_elem_of_fmap. split.
  - intros ([k p] & -> & Hin). by apply elem_of_map_to_list in Hin.
  - intros Hd. exists (_id d, fields d). split; [by destruct d|].
    by apply elem_of_map_to_list.
Qed.

(** X1.  The list route answers 200 with the stored documents, each once:
    a document is in the answer exactly when the collection holds its
    fields under its identifier; the collection is not changed. *)
Theorem get_products_lists_collection req db :
  ∃ ds, get_products req db
        = ({| list_status := 200; list_payload := Products ds |}, db) ∧
        NoDup ds ∧ length ds = size db ∧
        ∀ d, d ∈ ds ↔ db !! _id d = Some (fields d).
Proof.
  exists (to_document <$> map_to_list db). split; [done|]. split; [|split].
  - apply (NoDup_fmap_2 _), NoDup_map_to_list.
  - by rewrite length_fmap, length_map_to_list.
  - intros d. apply elem_of_find.
Qed.

(** ** Create *)

(** Every create either inserts one new document and answers 201, or
    answers 500 and changes nothing. *)
Lemma post_products_outcome oid req db :
  (∃ fs q p,
     Req.files req = val fs ∧
     castQuantity (Req.quantity (Req.body req)) = Normal q ∧
     db !! oid = None ∧
     images p = path <$> fs ∧ isFavorite p = undefined ∧
     post_products oid req db
     = (respond 201 (MessageProduct "Product successfully added"
                       {| _id := oid; fields := p |}),
        <[oid := p]> db)) ∨
  (∃ e, post_products oid req db
        = (respond 500 (MessageError "Error adding product" e), db) ∧
        (e = TypeError ∧ (∀ fs, Req.files req ≠ val fs) ∨
         e = ValidationError ∧
           castQuantity (Req.quantity (Req.body req)) = Throw CastError ∨
         e = MongoServerError ∧ is_Some (db !! oid))).
Proof.
  unfold post_products, try_catch, bind.
  destruct (Req.files req) as [| |fs] eqn:Hfs; cbn;
    try (right; exists TypeError; split; [done|]; left; split; [done|];
         intros ?; discriminate).
  rewrite (featured_or_first_files _ _ _ Hfs).
  unfold new_Product, save_new, scalars_with; cbn.
  destruct (castQuantity _) as [q|e] eqn:Hq; cbn.
  - destruct (db !! oid) eqn:Hdb.
    + right. exists MongoServerError. split; [done|]. right; right. eauto.
    + left. eexists fs, q, _. repeat split; done.
  - right. exists ValidationError. split; [done|]. right; left. split; [done|].
    revert Hq. unfold castQuantity. repeat case_match; congruence.
Qed.

(** X2.  After a create that answers 201, the list route returns the
    created document among one more document than the collection held. *)
Theorem list_after_create oid req req' db r db' :
  post_products oid req db = (r, db') → status r = 201 →
  ∃ d ds,
    r = respond 201 (MessageProduct "Product successfully added" d) ∧
    get_products req' db'
    = ({| list_status := 200; list_payload := Products ds |}, db') ∧
    d ∈ ds ∧ length ds = S (size db).
Proof.
  intros Hpost H201.
  destruct (post_products_created _ _ _ _ _ Hpost H201)
    as (fs & q & _ & _ & Hfresh & -> & ->).
  eexists _, _. split; [done|]. split; [apply get_products_eq|]. split.
  - apply elem_of_find. cbn. apply lookup_insert_eq.
  - rewrite length_fmap, length_map_to_list. by apply map_size_insert_None.
Qed.

(** X3.  Whatever a create answers, every document the collection held
    is still there unchanged; and unless it answers 201 the collection is
    exactly what it was. *)
Theorem post_products_preserves oid req db :
  (∀ k p, db !! k = Some p → (post_products oid req db).2 !! k = Some p) ∧
  (status (post_products oid req db).1 ≠ 201 → (post_products oid req db).2 = db).
Proof.
  destruct (post_products_outcome oid req db)
    as [(fs & q & p' & _ & _ & Hfresh & _ & _ & ->)|(e & -> & _)];
    cbn [fst snd]; split; try done.
  intros k p Hk. rewrite lookup_insert_ne; [done|congruence].
Qed.

(** X4.  A create answers 201 exactly when the request is multipart, its
    quantity casts and the generated identifier is free; in every other
    case it answers 500. *)
Theorem post_products_201_iff oid req db :
  (status (post_products oid req db).1 = 201 ↔
     (∃ fs, Req.files req = val fs) ∧
     (∃ q, castQuantity (Req.quantity (Req.body req)) = Normal q) ∧
     db !! oid = None) ∧
  (status (post_products oid req db).1 = 201 ∨
   status (post_products oid req db).1 = 500).
Proof.
  destruct (post_products_outcome oid req db)
    as [(fs & q & p' & Hfs & Hq & Hfresh & _ & _ & ->)
       |(e & -> & [[_ Hno]|[[_ Hq]|[_ [p Hp]]]])];
    cbn [fst snd status respond]; (split; [|by auto]); split; try done.
  - eauto.
  - intros [[fs Hfs] _]. by destruct (Hno fs).
  - intros (_ & [q Hq'] & _). congruence.
  - intros (_ & _ & Hfresh). congruence.
Qed.

(** X5.  The three ways a create fails, each answered 500 with the error
    in the body and nothing stored: a request that is not multipart
    ([TypeError] at line 71), a quantity that does not cast (validation
    at [save]), an identifier already taken. *)
Theorem post_products_errors oid req db :
  ((∀ fs, Req.files req ≠ val fs) →
     post_products oid req db
     = (respond 500 (MessageError "Error adding product" TypeError), db)) ∧
  (∀ fs, Req.files req = val fs →
     castQuantity (Req.quantity (Req.body req)) = Throw CastError →
     post_products oid req db
     = (respond 500 (MessageError "Error adding product" ValidationError), db)) ∧
  (∀ fs q, Req.files req = val fs →
     castQuantity (Req.quantity (Req.body req)) = Normal q →
     is_Some (db !! oid) →
     post_products oid req db
     = (respond 500 (MessageError "Error adding product" MongoServerError), db)).
Proof.
  unfold post_products, try_catch, bind. repeat split.
  - intros Hno. destruct (Req.files req) as [| |fs]; try done. by destruct (Hno fs).
  - intros fs Hfs Hq. rewrite Hfs. cbn. rewrite (featured_or_first_files _ _ _ Hfs).
    unfold new_Product, save_new, scalars_with; cbn. by rewrite Hq.
  - intros fs q Hfs Hq [p Hp]. rewrite Hfs. cbn.
    rewrite (featured_or_first_files _ _ _ Hfs).
    unfold new_Product, save_new, scalars_with; cbn. rewrite Hq. cbn.
    by rewrite Hp.
Qed.

(** ** Favorite toggle *)

Lemma put_favorite_missing req oid db :
  castObjectId (Req.params_id req) = Some oid → db !! oid = None →
  put_favorite req db = (respond 404 (Message "Product not found"), db).
Proof.
  intros Hid Hp. unfold put_favorite, try_catch, bind.
  by rewrite (findById_missing _ _ _ Hid Hp).
Qed.

Lemma put_favorite_malformed req db :
  castObjectId (Req.params_id req) = None →
  put_favorite req db
  = (respond 500 (MessageError "Error toggling favorite status" CastError), db).
Proof.
  intros Hid. unfold put_favorite, try_catch, bind.
  by rewrite (findById_malformed _ _ Hid).
Qed.

(** X6.  A favorite toggle on a well-formed identifier with no document
    answers 404, one on a malformed identifier answers 500 with the cast
    error; neither changes the collection, and no document is created. *)
Theorem put_favorite_404_500 req db :
  (∀ oid, castObjectId (Req.params_id req) = Some oid → db !! oid = None →
     put_favorite req db = (respond 404 (Message "Product not found"), db)) ∧
  (castObjectId (Req.params_id req) = None →
     put_favorite req db
     = (respond 500 (MessageError "Error toggling favorite status" CastError), db)).
Proof.
  split; [intros oid; apply put_favorite_missing | apply put_favorite_malformed].
Qed.

(** X7.  A product is created with no favorite flag, and the first toggle
    after a create that answered 201 stores [true]. *)
Theorem favorite_after_create oid req req' db r db' :
  castObjectId oid = Some oid →
  post_products oid req db = (r, db') → status r = 201 →
  Req.params_id req' = oid →
  ∃ p p',
    db' !! oid = Some p ∧ isFavorite p = undefined ∧
    put_favorite req' db'
    = (respond 200 (Doc {| _id := oid; fields := p' |}), <[oid := p']> db') ∧
    isFavorite p' = val true.
Proof.
  intros Hcanon Hpost H201 Hreq.
  destruct (post_products_created _ _ _ _ _ Hpost H201)
    as (fs & q & _ & _ & _ & -> & ->).
  eexists _, _. split; [apply lookup_insert_eq|]. split; [done|].
  split; [|shelve].
  apply put_favorite_found; [by rewrite Hreq|apply lookup_insert_eq].
  Unshelve. done.
Qed.

(** ** Update *)

(** Computing the featured image neither depends on the collection nor
    changes it. *)
Lemma featured_or_first_pure req db db0 :
  featured_or_first req db = ((featured_or_first req db0).1, db).
Proof.
  unfold featured_or_first, bind, deref.
  destruct (js_truthy _); [done|]. by destruct (Req.files req).
Qed.

Lemma has_files_inv req :
  has_files req = true → ∃ f fs, Req.files req = val (f :: fs).
Proof.
  unfold has_files. destruct (Req.files req) as [| |[|f fs]]; try done.
  intros _. by exists f, fs.
Qed.

(** The images an update sends: those of the request when it has files,
    those of the stored product otherwise. *)
Lemma set_path_idemp {A} (new old : js A) :
  set_path new (set_path new old) = set_path new old.
Proof. unfold set_path. destruct new; [|done..]. by destruct omitUndefined. Qed.

Lemma applyUpdate_idemp data q p :
  applyUpdate data q (applyUpdate data q p) = applyUpdate data q p.
Proof. unfold applyUpdate. cbn. by rewrite !set_path_idemp. Qed.

(** An update that passes every check. *)
Lemma put_product_success req oid p q featured db :
  (featured_or_first req db).1 = Normal featured →
  castObjectId (Req.params_id req) = Some oid → db !! oid = Some p →
  castQuantity (Req.quantity (Req.body req)) = Normal q →
  let imgs := match Req.files req with
              | val (f :: fs) => path <$> f :: fs
              | _ => images p
              end in
  let p' := applyUpdate (scalars_with req imgs featured) q p in
  put_product req db
  = (respond 200 (Doc {| _id := oid; fields := p' |}), <[oid := p']> db).
Proof.
  intros Hfeat Hid Hp Hq. unfold put_product, try_catch, bind.
  rewrite (featured_or_first_pure req db db), Hfeat.
  destruct (has_files req) eqn:Hhas.
  - destruct (has_files_inv _ Hhas) as (f & fs & Hfs). rewrite Hfs. cbn.
    unfold findByIdAndUpdate. cbn. by rewrite Hid, Hq, Hp.
  - rewrite (findById_found _ _ _ _ Hid Hp). cbn.
    unfold findByIdAndUpdate. cbn. rewrite Hid, Hq, Hp.
    revert Hhas. unfold has_files.
    by destruct (Req.files req) as [| |[|f fs]].
Qed.

(** Every update either rewrites the document it names and answers 200,
    or answers 404 or 500 and changes nothing. *)
Lemma put_product_outcome req db :
  (∃ oid p q featured,
     (featured_or_first req db).1 = Normal featured ∧
     castObjectId (Req.params_id req) = Some oid ∧ db !! oid = Some p ∧
     castQuantity (Req.quantity (Req.body req)) = Normal q) ∨
  (∃ r, put_product req db = (r, db) ∧ (status r = 404 ∨ status r = 500)).
Proof.
  destruct (put_product req db) as [r db'] eqn:Hput.
  pose proof (featured_or_first_pure req db db) as Hpure.
  revert Hput. unfold put_product, try_catch, bind, findByIdAndUpdate, findById.
  destruct (featured_or_first req db) as [[featured|e] db0];
    cbn in Hpure; injection Hpure as ->; [|by intros [= <- <-]; right; eauto].
  destruct (castObjectId (Req.params_id req)) as [oid|] eqn:Hid.
  2:{ destruct (has_files req); destruct (Req.files req) as [| |fs]; cbn;
        by intros [= <- <-]; right; eauto. }
  destruct (castQuantity (Req.quantity (Req.body req))) as [q|e] eqn:Hq;
  destruct (has_files req); destruct (Req.files req) as [| |fs];
  destruct (db !! oid) as [p|] eqn:Hp; cbn; rewrite ?Hp; cbn; rewrite ?Hq;
    try (by intros [= <- <-]; right; eauto);
    intros _; left; by exists oid, p, q, featured.
Qed.

Lemma put_favorite_outcome req db :
  (∃ oid p,
     castObjectId (Req.params_id req) = Some oid ∧ db !! oid = Some p ∧
     put_favorite req db
     = (respond 200 (Doc {| _id := oid;
                            fields := set_isFavorite (js_not (isFavorite p)) p |}),
        <[oid := set_isFavorite (js_not (isFavorite p)) p]> db)) ∨
  (∃ r, put_favorite req db = (r, db) ∧ (status r = 404 ∨ status r = 500)).
Proof.
  destruct (castObjectId (Req.params_id req)) as [oid|] eqn:Hid.
  - destruct (db !! oid) as [p|] eqn:Hp.
    + left. exists oid, p. by rewrite (put_favorite_found _ _ _ _ Hid Hp).
    + right. rewrite (put_favorite_missing _ _ _ Hid Hp). eauto.
  - right. rewrite (put_favorite_malformed _ _ Hid). eauto.
Qed.

(** X8.  An update is idempotent: sent a second time, the same request
    gets the same answer and leaves the same collection. *)
Theorem put_product_idempotent req db :
  put_product req (put_product req db).2 = put_product req db.
Proof.
  destruct (put_product_outcome req db)
    as [(oid & p & q & featured & Hfeat & Hid & Hp & Hq)|(r & Hr & _)].
  2:{ by rewrite Hr. }
  rewrite (put_product_success _ _ _ _ _ _ Hfeat Hid Hp Hq). cbn [snd].
  set (imgs := match Req.files req with
               | val (f :: fs) => path <$> f :: fs
               | _ => images p
               end).
  set (p' := applyUpdate (scalars_with req imgs featured) q p).
  rewrite (put_product_success req oid p' q featured);
    [|by rewrite featured_or_first_pure with (db0 := db)
     |done|apply lookup_insert_eq|done].
  assert (match Req.files req with
          | val (f :: fs) => path <$> f :: fs
          | _ => images p'
          end = imgs) as ->.
  { subst imgs p'. by destruct (Req.files req) as [| |[|f fs]]. }
  fold p'. subst p'. by rewrite applyUpdate_idemp, insert_insert_eq.
Qed.

(** X9.  An update adds and removes no identifier, never touches
    [isFavorite], changes no document but the one it names, and changes
    nothing at all unless it answers 200. *)
Theorem put_product_frame req db :
  dom (put_product req db).2 = dom db ∧
  (∀ k p, db !! k = Some p →
     ∃ p', (put_product req db).2 !! k = Some p' ∧
           isFavorite p' = isFavorite p ∧
           (castObjectId (Req.params_id req) ≠ Some k → p' = p)) ∧
  (status (put_product req db).1 ≠ 200 → (put_product req db).2 = db).
Proof.
  destruct (put_product_outcome req db)
    as [(oid & p0 & q & featured & Hfeat & Hid & Hp & Hq)|(r & Hr & _)].
  2:{ rewrite Hr. cbn [fst snd]. split; [done|]. split; [|done].
      intros k p Hk. by exists p. }
  rewrite (put_product_success _ _ _ _ _ _ Hfeat Hid Hp Hq). cbn [fst snd].
  split; [|split; [|done]].
  - apply dom_insert_lookup_L. by rewrite Hp.
  - intros k p Hk. destruct (decide (k = oid)) as [->|Hne].
    + eexists. split; [apply lookup_insert_eq|]. split; [cbn; congruence|].
      intros Hno. by destruct Hno.
    + exists p. by rewrite lookup_insert_ne.
Qed.

(** X10.  An update whose request is not multipart ([req.files] is
    [undefined]): without a truthy [featuredImage] in the body it is
    answered 500, line 111 reading [req.files[0]]; with one, [||] skips
    that read, and the update of an existing product goes through with
    the images it had. *)
Theorem put_product_not_multipart req db :
  Req.files req = undefined →
  (js_truthy (Req.featuredImage (Req.body req)) = false →
     put_product req db
     = (respond 500 (MessageError "Error updating product" TypeError), db)) ∧
  (∀ oid p q,
     js_truthy (Req.featuredImage (Req.body req)) = true →
     castObjectId (Req.params_id req) = Some oid → db !! oid = Some p →
     castQuantity (Req.quantity (Req.body req)) = Normal q →
     ∃ p', put_product req db
           = (respond 200 (Doc {| _id := oid; fields := p' |}), <[oid := p']> db) ∧
           images p' = images p ∧
           featuredImage p' = Req.featuredImage (Req.body req)).
Proof.
  intros Hfs. split.
  - intros Hfalsy. unfold put_product, try_catch, bind, featured_or_first, bind.
    by rewrite Hfalsy, Hfs.
  - intros oid p q Htruthy Hid Hp Hq.
    rewrite (put_product_success req oid p q (Req.featuredImage (Req.body req)));
      [|by unfold featured_or_first; rewrite Htruthy|done..].
    rewrite Hfs. eexists. split; [done|]. split; [done|]. cbn.
    by destruct (Req.featuredImage (Req.body req)).
Qed.

(** X11.  An update that supplies a non-empty [featuredImage] and answers
    200 stores and returns that text as the featured image, with or
    without files. *)
Theorem put_product_explicit_featuredImage req s d db :
  Req.featuredImage (Req.body req) = val s → s ≠ EmptyString →
  (put_product req db).1 = respond 200 (Doc d) →
  featuredImage (fields d) = val s ∧
  (put_product req db).2 !! _id d = Some (fields d).
Proof.
  intros Hfeat Hs.
  destruct (put_product_outcome req db)
    as [(oid & p & q & featured & Hfo & Hid & Hp & Hq)|(r & -> & Hr)].
  2:{ cbn [fst]. intros ->. cbn in Hr. by destruct Hr. }
  rewrite (put_product_success _ _ _ _ _ _ Hfo Hid Hp Hq). cbn [fst snd].
  intros [= <-]. cbn. split; [|apply lookup_insert_eq].
  revert Hfo. unfold featured_or_first. rewrite Hfeat. cbn.
  rewrite (truthy_nonempty _ Hs). by intros [= <-].
Qed.

(** X12.  Read your writes: after an update or a favorite toggle that
    answers 200, a get-by-id with the same identifier answers 200 with
    the very document the write returned. *)
Theorem get_after_write req d db :
  ((put_product req db).1 = respond 200 (Doc d) →
     get_product req (put_product req db).2
     = (respond 200 (Doc d), (put_product req db).2)) ∧
  ((put_favorite req db).1 = respond 200 (Doc d) →
     get_product req (put_favorite req db).2
     = (respond 200 (Doc d), (put_favorite req db).2)).
Proof.
  split.
  - destruct (put_product_outcome req db)
      as [(oid & p & q & featured & Hfo & Hid & Hp & Hq)|(r & -> & Hr)].
    2:{ cbn [fst]. intros ->. cbn in Hr. by destruct Hr. }
    rewrite (put_product_success _ _ _ _ _ _ Hfo Hid Hp Hq). cbn [fst snd].
    intros [= <-]. apply get_product_found; [done|apply lookup_insert_eq].
  - destruct (put_favorite_outcome req db)
      as [(oid & p & Hid & Hp & ->)|(r & -> & Hr)].
    2:{ cbn [fst]. intros ->. cbn in Hr. by destruct Hr. }
    cbn [fst snd]. intros [= <-].
    apply get_product_found; [done|apply lookup_insert_eq].
Qed.

(** ** Delete *)

Lemma delete_product_malformed req db :
  castObjectId (Req.params_id req) = None →
  delete_product req db = (respond 500 (RawError CastError), db).
Proof.
  intros Hid. unfold delete_product, try_catch, bind, findByIdAndDelete.
  by rewrite Hid.
Qed.

(** X13.  Deleting the product of a create that answered 201 gives back
    the collection as it was before the create. *)
Theorem delete_after_create oid req req' db r db' :
  castObjectId oid = Some oid →
  post_products oid req db = (r, db') → status r = 201 →
  Req.params_id req' = oid →
  delete_product req' db' = (respond 204 Empty, db).
Proof.
  intros Hcanon Hpost H201 Hreq.
  destruct (post_products_created _ _ _ _ _ Hpost H201)
    as (fs & q & _ & _ & Hfresh & -> & ->).
  rewrite (delete_product_deletes req' oid) by (by rewrite Hreq).
  by rewrite delete_insert_id.
Qed.

(** X14.  A delete is idempotent, leaves every document but the one it
    names as it was, and on a malformed identifier answers 500 with the
    raw cast error and deletes nothing. *)
Theorem delete_product_idempotent req db :
  delete_product req (delete_product req db).2 = delete_product req db ∧
  (∀ k, castObjectId (Req.params_id req) ≠ Some k →
        (delete_product req db).2 !! k = db !! k) ∧
  (castObjectId (Req.params_id req) = None →
     delete_product req db = (respond 500 (RawError CastError), db)).
Proof.
  destruct (castObjectId (Req.params_id req)) as [oid|] eqn:Hid.
  - rewrite !(delete_product_deletes _ _ _ Hid). cbn [snd].
    rewrite delete_delete_eq. split; [done|]. split; [|done].
    intros k Hk. apply lookup_delete_ne. congruence.
  - by rewrite !(delete_product_malformed _ _ Hid).
Qed.

(** ** All routes *)

Lemma get_product_outcome req db :
  ∃ r, get_product req db = (r, db) ∧
       (status r = 200 ∨ status r = 404 ∨ status r = 500).
Proof.
  destruct (castObjectId (Req.params_id req)) as [oid|] eqn:Hid.
  - destruct (db !! oid) as [p|] eqn:Hp.
    + rewrite (get_product_found _ _ _ _ Hid Hp). eauto.
    + rewrite (get_product_missing _ _ _ Hid Hp). eauto.
  - rewrite (get_product_malformed _ _ Hid). eauto.
Qed.

(** X15.  Every route answers with one of 200, 201, 204, 404 and 500, and
    a request answered 404 or 500 has changed nothing in the collection. *)
Theorem serve_errors_change_nothing c db :
  (serve c db).1 ∈ [200; 201; 204; 404; 500] ∧
  ((serve c db).1 = 404 ∨ (serve c db).1 = 500 → (serve c db).2 = db).
Proof.
  destruct c as [req|oid req|req|req|req|req|req]; cbn [serve].
  - cbn. split; [set_solver|done].
  - destruct (post_products_outcome oid req db)
      as [(fs & q & p & _ & _ & _ & _ & _ & ->)|(e & -> & _)]; cbn.
    + split; [set_solver|]. by intros [|].
    + split; [set_solver|done].
  - rewrite get_products_eq. cbn. split; [set_solver|done].
  - destruct (get_product_outcome req db) as (r & -> & Hr). cbn [fst snd].
    split; [|done]. destruct Hr as [-> | [-> | ->]]; set_solver.
  - destruct (put_product_outcome req db)
      as [(oid & p & q & featured & Hfo & Hid & Hp & Hq)|(r & -> & Hr)].
    + rewrite (put_product_success _ _ _ _ _ _ Hfo Hid Hp Hq). cbn.
      split; [set_solver|]. by intros [|].
    + cbn [fst snd]. split; [|done]. destruct Hr as [-> | ->]; set_solver.
  - destruct (put_favorite_outcome req db)
      as [(oid & p & Hid & Hp & ->)|(r & -> & Hr)]; cbn [fst snd].
    + cbn. split; [set_solver|]. by intros [|].
    + split; [|done]. destruct Hr as [-> | ->]; set_solver.
  - destruct (castObjectId (Req.params_id req)) as [oid|] eqn:Hid.
    + rewrite (delete_product_deletes _ _ _ Hid). cbn.
      split; [set_solver|]. by intros [|].
    + rewrite (delete_product_malformed _ _ Hid). cbn. split; [set_solver|done].
Qed.

(** X16.  Which identifiers the collection holds changes only through a
    create, which can add the generated one, and through a delete, which
    removes the one it names; the two read routes and the upload route
    leave the whole collection as it was. *)
Theorem serve_identifiers c db :
  match c with
  | POST_products oid _ =>
      dom db ⊆ dom (serve c db).2 ∧ dom (serve c db).2 ⊆ dom db ∪ {[oid]}
  | DELETE_product req =>
      dom (serve c db).2
      = dom db ∖ from_option singleton ∅ (castObjectId (Req.params_id req))
  | PUT_product _ | PUT_favorite _ => dom (serve c db).2 = dom db
  | POST_upload _ | GET_products _ | GET_product _ => (serve c db).2 = db
  end.
Proof.
  destruct c as [req|oid req|req|req|req|req|req]; cbn [serve snd]; try done.
  - destruct (post_products_outcome oid req db)
      as [(fs & q & p & _ & _ & _ & _ & _ & ->)|(e & -> & _)]; cbn [snd].
    + rewrite dom_insert_L. split; [apply union_subseteq_r|].
      by rewrite (comm_L (∪)).
    + split; [done|apply union_subseteq_l].
  - by destruct (get_product_outcome req db) as (r & -> & _).
  - destruct (put_product_outcome req db)
      as [(oid & p & q & featured & Hfo & Hid & Hp & Hq)|(r & -> & Hr)]; [|done].
    rewrite (put_product_success _ _ _ _ _ _ Hfo Hid Hp Hq). cbn [snd].
    apply dom_insert_lookup_L. by rewrite Hp.
  - destruct (put_favorite_outcome req db)
      as [(oid & p & Hid & Hp & ->)|(r & -> & Hr)]; [|done].
    cbn [snd]. apply dom_insert_lookup_L. by rewrite Hp.
  - destruct (castObjectId (Req.params_id req)) as [oid|] eqn:Hid.
    + rewrite (delete_product_deletes _ _ _ Hid). cbn. apply dom_delete_L.
    + rewrite (delete_product_malformed _ _ Hid). cbn.
      by rewrite difference_empty_L.
Qed.

(** ** An invariant of the collection *)

Lemma applyUpdate_well_formed data q p :
  length (data_images data) ≤ maxCount → well_formed p →
  well_formed (applyUpdate data q p).
Proof. intros Hlen [_ Hfav]. by split. Qed.

Lemma array_limit_length req fs :
  array_limit req = true → Req.files req = val fs → length (path <$> fs) ≤ maxCount.
Proof.
  unfold array_limit. intros Hlim Hfs. rewrite Hfs in Hlim.
  rewrite length_fmap. by apply bool_decide_eq_true in Hlim.
Qed.

Lemma serve_well_formed c db :
  passes_upload c = true →
  map_Forall (λ _, well_formed) db →
  map_Forall (λ _, well_formed) (serve c db).2.
Proof.
  intros Hpass Hdb.
  destruct c as [req|oid req|req|req|req|req|req]; cbn [serve snd]; try done.
  - destruct (post_products_outcome oid req db)
      as [(fs & q & p & Hfs & _ & _ & Himgs & Hfav & ->)|(e & -> & _)]; [|done].
    cbn [snd]. apply map_Forall_insert_2; [|done]. split.
    + rewrite Himgs. by apply (array_limit_length req).
    + by rewrite Hfav.
  - by destruct (get_product_outcome req db) as (r & -> & _).
  - destruct (put_product_outcome req db)
      as [(oid & p & q & featured & Hfo & Hid & Hp & Hq)|(r & -> & Hr)]; [|done].
    rewrite (put_product_success _ _ _ _ _ _ Hfo Hid Hp Hq). cbn [snd].
    apply map_Forall_insert_2; [|done].
    apply applyUpdate_well_formed; [|by apply (Hdb oid)]. cbn.
    destruct (Req.files req) as [| |[|f fs]] eqn:Hfs;
      try by apply (Hdb oid p Hp).
    by apply (array_limit_length req (f :: fs)).
  - destruct (put_favorite_outcome req db)
      as [(oid & p & Hid & Hp & ->)|(r & -> & Hr)]; [|done].
    cbn [snd]. apply map_Forall_insert_2; [|done].
    split; [by apply (Hdb oid p Hp)|done].
  - destruct (castObjectId (Req.params_id req)) as [oid|] eqn:Hid.
    + rewrite (delete_product_deletes _ _ _ Hid). by apply map_Forall_delete.
    + by rewrite (delete_product_malformed _ _ Hid).
Qed.

(** X17.  Served any sequence of requests that the upload middleware lets
    through, a collection in which every product has at most five images
    and a favorite flag that is unset or a boolean stays such a
    collection; so does, in particular, the empty one. *)
Theorem run_well_formed cs db :
  Forall (λ c, passes_upload c = true) cs →
  map_Forall (λ _, well_formed) db →
  map_Forall (λ _, well_formed) (run cs db).
Proof.
  intros Hcs. revert db. induction Hcs as [|c cs Hc _ IH]; intros db Hdb; [done|].
  cbn. fold (run cs (serve c db).2). by apply IH, serve_well_formed.
Qed.

End Outcomes.

(** ** The names of stored files *)

Lemma dotless_pretty_N_go x s :
  dotless s = true → dotless (pretty_N_go x s) = true.
Proof.
  revert s. induction (N.lt_wf_0 x) as [x _ IH]. intros s Hs.
  destruct (decide (x = 0%N)) as [->|Hx]; [done|].
  rewrite pretty_N_go_step by lia.
  apply IH; [apply N.div_lt; lia|].
  cbn. rewrite Hs, andb_true_r. apply bool_decide_eq_true.
  unfold pretty_N_char. by repeat case_match.
Qed.

Lemma dotless_pretty (n : N) : dotless (pretty n) = true.
Proof.
  unfold pretty, pretty_N. case_decide; [done|]. by apply dotless_pretty_N_go.
Qed.

(** A dotless text followed by an extension splits in one way only. *)
Lemma dotless_ext_inj d1 d2 e1 e2 :
  dotless d1 = true → dotless d2 = true →
  is_ext e1 = true → is_ext e2 = true →
  d1 +:+ e1 = d2 +:+ e2 → d1 = d2 ∧ e1 = e2.
Proof.
  revert d2. induction d1 as [|c1 d1 IH]; intros [|c2 d2]; cbn;
    intros Hd1 Hd2 He1 He2 Heq;
    unfold String.append in Heq; fold String.append in Heq.
  - done.
  - subst e1. cbn in He1.
    apply andb_true_iff in Hd2 as [Hc2%bool_decide_eq_true _].
    by apply bool_decide_eq_true in He1.
  - subst e2. cbn in He2.
    apply andb_true_iff in Hd1 as [Hc1%bool_decide_eq_true _].
    by apply bool_decide_eq_true in He2.
  - injection Heq as -> Heq.
    apply andb_true_iff in Hd1 as [_ Hd1]. apply andb_true_iff in Hd2 as [_ Hd2].
    destruct (IH d2 Hd1 Hd2 He1 He2 Heq) as [-> ->]. done.
Qed.

Section StorageProperties.
Variable extname : string → string.

(** X18.  Two uploads are stored under the same path exactly when they
    arrive at the same millisecond with the same extension: files stored
    at different times never share a path, and the rest of the original
    name plays no part. *)
Theorem diskStorage_path_eq_iff now1 now2 n1 n2 :
  is_ext (extname n1) = true → is_ext (extname n2) = true →
  path (diskStorage extname now1 n1) = path (diskStorage extname now2 n2)
  ↔ now1 = now2 ∧ extname n1 = extname n2.
Proof.
  intros He1 He2. unfold diskStorage, storage_filename, storage_destination.
  cbn. split.
  - unfold String.append at 1 3. fold String.append. intros [= Heq].
    destruct (dotless_ext_inj _ _ _ _ (dotless_pretty now1) (dotless_pretty now2)
                He1 He2 Heq) as [Hnow Hext].
    split; [|done]. by apply (inj pretty).
  - by intros [-> ->].
Qed.

End StorageProperties.

(** * Evaluation of the further properties *)

Lemma list_after_create_witness :
  ∃ (d : @Document drops_undefined) (ds : list (@Document drops_undefined)),
    (@get_products drops_undefined (plain EmptyString)
       (@post_products drops_undefined oid2
          (multipart EmptyString (widget_body undefined) [img1; img2]) with_cover).2).1
    = {| list_status := 200; list_payload := Products ds |} ∧
    _id d = oid2 ∧ d ∈ ds ∧ length ds = 2.
Proof.
  destruct (@list_after_create drops_undefined oid2
              (multipart EmptyString (widget_body undefined) [img1; img2])
              (plain EmptyString) with_cover
              (@post_products drops_undefined oid2
                 (multipart EmptyString (widget_body undefined) [img1; img2])
                 with_cover).1
              (@post_products drops_undefined oid2
                 (multipart EmptyString (widget_body undefined) [img1; img2])
                 with_cover).2)
    as (d & ds & Hr & Hlist & Hin & Hlen); [reflexivity | reflexivity |].
  exists d, ds. split; [by rewrite Hlist|]. split; [by injection Hr as <-|].
  split; [exact Hin | exact Hlen].
Defined.

Lemma post_products_preserves_witness :
  (@post_products drops_undefined oid2
     (multipart EmptyString (widget_body undefined) [img2]) with_cover).2 !! oid1
  = Some (@widget drops_undefined (val 3%Z) [path img1]
            (val "uploads/cover.png") undefined) ∧
  (@post_products drops_undefined oid1
     (multipart EmptyString (widget_body undefined) [img2]) with_cover).2
  = with_cover.
Proof.
  split.
  - apply (proj1 (@post_products_preserves drops_undefined oid2
                    (multipart EmptyString (widget_body undefined) [img2])
                    with_cover)).
    reflexivity.
  - apply (proj2 (@post_products_preserves drops_undefined oid1
                    (multipart EmptyString (widget_body undefined) [img2])
                    with_cover)).
    discriminate.
Defined.

Lemma post_products_errors_witness :
  @post_products drops_undefined oid2 (not_multipart EmptyString (widget_body undefined))
    with_cover
  = (respond 500 (MessageError "Error adding product" TypeError), with_cover) ∧
  @post_products drops_undefined oid2
    (multipart EmptyString
       {| Req.sku := val "A1"; Req.name := val "Widget"; Req.quantity := val "many";
          Req.description := undefined; Req.featuredImage := undefined |} [img1])
    with_cover
  = (respond 500 (MessageError "Error adding product" ValidationError), with_cover) ∧
  @post_products drops_undefined oid1
    (multipart EmptyString (widget_body undefined) [img1]) with_cover
  = (respond 500 (MessageError "Error adding product" MongoServerError), with_cover).
Proof.
  split; [|split].
  - apply (proj1 (@post_products_errors drops_undefined oid2
                    (not_multipart EmptyString (widget_body undefined)) with_cover)).
    discriminate.
  - apply (proj1 (proj2 (@post_products_errors drops_undefined oid2 _ with_cover))
             [img1]); reflexivity.
  - apply (proj2 (proj2 (@post_products_errors drops_undefined oid1
                           (multipart EmptyString (widget_body undefined) [img1])
                           with_cover))
             [img1] (val 3%Z)); [reflexivity | reflexivity |].
    eexists. reflexivity.
Defined.

Lemma put_favorite_404_500_witness :
  @put_favorite keeps_undefined (plain oid2) with_cover
  = (respond 404 (Message "Product not found"), with_cover) ∧
  @put_favorite keeps_undefined (plain "favorite") with_cover
  = (respond 500 (MessageError "Error toggling favorite status" CastError),
     with_cover).
Proof.
  split.
  - apply (proj1 (@put_favorite_404_500 keeps_undefined (plain oid2) with_cover) oid2);
      reflexivity.
  - apply (proj2 (@put_favorite_404_500 keeps_undefined (plain "favorite") with_cover)).
    reflexivity.
Defined.

Lemma favorite_after_create_witness :
  ∃ p',
    (@put_favorite drops_undefined (plain oid1) with_cover).2 !! oid1 = Some p' ∧
    isFavorite p' = val true.
Proof.
  destruct (@favorite_after_create drops_undefined oid1
              (multipart EmptyString (widget_body (val "uploads/cover.png")) [img1])
              (plain oid1) ∅
              (@post_products drops_undefined oid1
                 (multipart EmptyString (widget_body (val "uploads/cover.png")) [img1])
                 ∅).1
              with_cover)
    as (p & p' & _ & _ & Hput & Hfav);
    [reflexivity | reflexivity | reflexivity | reflexivity |].
  exists p'. split; [|exact Hfav]. rewrite Hput. apply lookup_insert_eq.
Defined.

Lemma put_product_frame_witness :
  ∃ p' : @Product keeps_undefined,
    (@put_product keeps_undefined
       (multipart oid1 (widget_body undefined) [img2]) with_cover).2 !! oid1
    = Some p' ∧
    isFavorite p' = undefined.
Proof.
  destruct (proj1 (proj2 (@put_product_frame keeps_undefined
                            (multipart oid1 (widget_body undefined) [img2])
                            with_cover))
              oid1
              (@widget keeps_undefined (val 3%Z) [path img1]
                 (val "uploads/cover.png") undefined))
    as (p' & Hp' & Hfav & _); [reflexivity|].
  exists p'. split; [exact Hp' | exact Hfav].
Defined.

Lemma put_product_not_multipart_witness :
  @put_product drops_undefined (not_multipart oid1 (widget_body undefined)) with_cover
  = (respond 500 (MessageError "Error updating product" TypeError), with_cover) ∧
  ∃ p' : @Product drops_undefined,
    (@put_product drops_undefined
       (not_multipart oid1 (widget_body (val "uploads/new.png"))) with_cover).1
    = respond 200 (Doc {| _id := oid1; fields := p' |}) ∧
    images p' = [path img1] ∧ featuredImage p' = val "uploads/new.png".
Proof.
  split.
  - apply (proj1 (@put_product_not_multipart drops_undefined
                    (not_multipart oid1 (widget_body undefined)) with_cover
                    eq_refl)).
    reflexivity.
  - destruct (proj2 (@put_product_not_multipart drops_undefined
                       (not_multipart oid1 (widget_body (val "uploads/new.png")))
                       with_cover eq_refl)
                oid1
                (@widget drops_undefined (val 3%Z) [path img1]
                   (val "uploads/cover.png") undefined)
                (val 3%Z))
      as (p' & Hput & Himgs & Hfeat);
      [reflexivity | reflexivity | reflexivity | reflexivity |].
    exists p'. split; [by rewrite Hput|]. split; [exact Himgs | exact Hfeat].
Defined.

Lemma put_product_explicit_featuredImage_witness :
  featuredImage
    (@widget keeps_undefined (val 3%Z) [path img2] (val "uploads/new.png") undefined)
  = val "uploads/new.png" ∧
  (@put_product keeps_undefined
     (multipart oid1 (widget_body (val "uploads/new.png")) [img2]) with_cover).2
    !! oid1
  = Some (@widget keeps_undefined (val 3%Z) [path img2] (val "uploads/new.png")
            undefined).
Proof.
  apply (@put_product_explicit_featuredImage keeps_undefined
           (multipart oid1 (widget_body (val "uploads/new.png")) [img2])
           "uploads/new.png"
           {| _id := oid1;
              fields := @widget keeps_undefined (val 3%Z) [path img2]
                          (val "uploads/new.png") undefined |}
           with_cover);
    [reflexivity | discriminate | reflexivity].
Defined.

Lemma get_after_write_witness :
  @get_product drops_undefined (multipart oid1 (widget_body undefined) [img2])
    (@put_product drops_undefined
       (multipart oid1 (widget_body undefined) [img2]) with_cover).2
  = (respond 200
       (Doc {| _id := oid1;
               fields := @widget drops_undefined (val 3%Z) [path img2]
                           (val (path img2)) undefined |}),
     (@put_product drops_undefined
        (multipart oid1 (widget_body undefined) [img2]) with_cover).2) ∧
  @get_product drops_undefined (plain oid1)
    (@put_favorite drops_undefined (plain oid1) with_cover).2
  = (respond 200
       (Doc {| _id := oid1;
               fields := @widget drops_undefined (val 3%Z) [path img1]
                           (val "uploads/cover.png") (val true) |}),
     (@put_favorite drops_undefined (plain oid1) with_cover).2).
Proof.
  split.
  - apply (proj1 (@get_after_write drops_undefined
                    (multipart oid1 (widget_body undefined) [img2]) _ with_cover)).
    reflexivity.
  - apply (proj2 (@get_after_write drops_undefined (plain oid1) _ with_cover)).
    reflexivity.
Defined.

Lemma delete_after_create_witness :
  @delete_product drops_undefined (plain oid1) with_cover = (respond 204 Empty, ∅).
Proof.
  apply (@delete_after_create drops_undefined oid1
           (multipart EmptyString (widget_body (val "uploads/cover.png")) [img1])
           (plain oid1) ∅
           (@post_products drops_undefined oid1
              (multipart EmptyString (widget_body (val "uploads/cover.png")) [img1])
              ∅).1
           with_cover);
    reflexivity.
Defined.

Lemma delete_product_idempotent_witness :
  (@delete_product drops_undefined (plain oid2) with_cover).2 !! oid1
  = @with_cover drops_undefined !! oid1 ∧
  @delete_product drops_undefined (plain "all") with_cover
  = (respond 500 (RawError CastError), with_cover).
Proof.
  split.
  - apply (proj1 (proj2 (@delete_product_idempotent drops_undefined (plain oid2)
                           with_cover))).
    discriminate.
  - apply (proj2 (proj2 (@delete_product_idempotent drops_undefined (plain "all")
                           with_cover))).
    reflexivity.
Defined.

Lemma serve_errors_change_nothing_witness :
  (@serve drops_undefined (PUT_product (multipart oid2 (widget_body undefined) [img2]))
     with_cover).2
  = with_cover.
Proof.
  apply (proj2 (@serve_errors_change_nothing drops_undefined
                  (PUT_product (multipart oid2 (widget_body undefined) [img2]))
                  with_cover)).
  left. reflexivity.
Defined.

Lemma run_well_formed_witness :
  map_Forall (λ _, @well_formed drops_undefined) (@run drops_undefined session ∅).
Proof.
  apply (@run_well_formed drops_undefined session ∅).
  - repeat constructor.
  - apply map_Forall_empty.
Defined.

Lemma diskStorage_path_eq_iff_witness :
  path (diskStorage from_last_dot 1700000000001 "img1.png")
  = path (diskStorage from_last_dot 1700000000001 "holiday.photo.png") ∧
  path (diskStorage from_last_dot 1700000000001 "img1.png")
  ≠ path (diskStorage from_last_dot 1700000000002 "img1.png").
Proof.
  split.
  - apply (proj2 (diskStorage_path_eq_iff from_last_dot 1700000000001 1700000000001
                    "img1.png" "holiday.photo.png" eq_refl eq_refl)).
    split; reflexivity.
  - intros Heq.
    apply (proj1 (diskStorage_path_eq_iff from_last_dot 1700000000001 1700000000002
                    "img1.png" "img1.png" eq_refl eq_refl)) in Heq.
    destruct Heq as [Hnow _]. discriminate Hnow.
Defined.

Example session_result :
  @run drops_undefined session ∅
  = {[ oid1 := @widget drops_undefined (val 3%Z) [path img1; path img2]
                 (val (path img1)) (val true) ]}.
Proof. reflexivity. Qed.

Example storage_example :
  diskStorage from_last_dot 1700000000001 "img1.png"
  = {| originalname := "img1.png"; filename := "1700000000001.png";
       path := "uploads/1700000000001.png" |}.
Proof. reflexivity. Qed.
